(** * fakeTape: a tape device with a linear timing model and three index strategies

    Shallow embedding of [src/main.cpp].  The C++ classes [TapeDevice],
    [NoIndexStrategy], [FixedIntervalIndexStrategy] and
    [HierarchicalIndexStrategy] become records; their methods become
    computations in a small state-and-exception monad, so that a method
    that throws leaves the object in the state reached at the [throw].

    - [size_t] and [uint64_t] are [N] with the wrap-around modulo [2^64]
      written at every arithmetic operation of the source;
    - [double] is Rocq's primitive binary64 [float];
    - [std::vector<T>] is [list T], [std::unordered_map] is [gmap]. *)

From Stdlib Require Import NArith ZArith Lia Floats String.
From stdpp Require Import base option list gmap.

Local Open Scope N_scope.

(** ** Machine integers *)

Definition SIZE_BITS : N := 64.
Definition SIZE_MODULUS : N := 2 ^ SIZE_BITS.

(** Reduction of a mathematical integer to [size_t] / [uint64_t]. *)
Definition wrap64 (z : Z) : N := Z.to_N (z mod Z.of_N SIZE_MODULUS).

Definition add64 (a b : N) : N := wrap64 (Z.of_N a + Z.of_N b).
Definition sub64 (a b : N) : N := wrap64 (Z.of_N a - Z.of_N b).
Definition mul64 (a b : N) : N := wrap64 (Z.of_N a * Z.of_N b).

(** [static_cast<int64_t>(x)] of a [size_t]: two's complement. *)
Definition to_int64 (x : N) : Z :=
  let z := (Z.of_N x mod Z.of_N SIZE_MODULUS)%Z in
  if (z <? 2 ^ 63)%Z then z else (z - Z.of_N SIZE_MODULUS)%Z.

(** [std::string::npos], the "not found" position. *)
Definition npos : N := SIZE_MODULUS - 1.

(** Conversion of an unsigned integer to [double] (round to nearest even). *)
Definition double_of_size_t (n : N) : float :=
  SF2Prim (binary_normalize prec emax (Z.of_N n) 0 false).

(** ** Exceptions, outcomes and the method monad *)

(** [std::out_of_range] with its message, and the integer division by zero
    on which the program stops. *)
Inductive exn : Type :=
| out_of_range (what : string)
| arithmetic_fault.

(** How a call ends.  The loops of the source are recursive functions with
    a fuel argument; [OutOfFuel] marks a loop cut short by it, which the
    properties below show never to happen with the fuel the methods pass. *)
Inductive outcome (A : Type) : Type :=
| Returned (a : A)
| Thrown (e : exn)
| OutOfFuel.
Arguments Returned {A} a.
Arguments Thrown {A} e.
Arguments OutOfFuel {A}.

Definition M (St A : Type) : Type := St -> outcome A * St.

Definition ret {St A} (a : A) : M St A := fun s => (Returned a, s).

Definition bind {St A B} (c : M St A) (k : A -> M St B) : M St B :=
  fun s =>
    match c s with
    | (Returned a, s') => k a s'
    | (Thrown e, s') => (Thrown e, s')
    | (OutOfFuel, s') => (OutOfFuel, s')
    end.

Definition throw {St A} (e : exn) : M St A := fun s => (Thrown e, s).
Definition out_of_fuel {St A} : M St A := fun s => (OutOfFuel, s).
Definition get {St} : M St St := fun s => (Returned s, s).
Definition put {St} (s : St) : M St unit := fun _ => (Returned tt, s).

Notation "'let*' x ':=' c 'in' k" := (bind c (fun x => k))
  (at level 10, x pattern, c at level 100, k at level 200, only parsing).

(** Unsigned division and remainder; a zero divisor stops the program. *)
Definition udiv {St} (a b : N) : M St N :=
  if b =? 0 then throw arithmetic_fault else ret (a / b).

Definition umod {St} (a b : N) : M St N :=
  if b =? 0 then throw arithmetic_fault else ret (a mod b).

(** A method of a strategy object runs on the pair of the object and the
    device it was handed by reference. *)
Definition on_tape {Self Tape A} (c : M Tape A) : M (Self * Tape) A :=
  fun st =>
    let '(r, tape') := c (snd st) in (r, (fst st, tape')).

Definition on_self {Self Tape A} (c : M Self A) : M (Self * Tape) A :=
  fun st =>
    let '(r, self') := c (fst st) in (r, (self', snd st)).

(** ** Blocks and the device *)

Record TapeBlock : Type := mkTapeBlock {
  block_id : N;
  data : list Byte.byte;
  is_index_block : bool
}.

Record TapeDevice : Type := mkTapeDevice {
  block_size : N;
  read_speed : float;
  write_speed : float;
  seek_time_per_block : float;
  current_position : N;
  blocks : list TapeBlock
}.

(** [v.size()] of a vector, as a [size_t]. *)
Definition vector_size {A} (v : list A) : N := N.of_nat (length v).

(** [0.01] is not a binary64 value; the compiler takes the nearest one. *)
Definition default_seek_time : float := 0x1.47ae147ae147bp-7%float.

Definition TapeDevice_new (block_size : N) (read_speed write_speed seek_time : float)
  : TapeDevice :=
  mkTapeDevice block_size read_speed write_speed seek_time 0 [].

Definition TapeDevice_default : TapeDevice :=
  TapeDevice_new 4096 1048576%float 524288%float default_seek_time.

Definition set_blocks (d : TapeDevice) (bs : list TapeBlock) : TapeDevice :=
  mkTapeDevice (block_size d) (read_speed d) (write_speed d)
               (seek_time_per_block d) (current_position d) bs.

Definition set_current_position (d : TapeDevice) (p : N) : TapeDevice :=
  mkTapeDevice (block_size d) (read_speed d) (write_speed d)
               (seek_time_per_block d) p (blocks d).

Definition write_block (block : TapeBlock) : M TapeDevice float :=
  let* d := get in
  let* _ := put (set_blocks d (blocks d ++ [block])) in
  let time := (double_of_size_t (vector_size (data block)) / write_speed d)%float in
  ret time.

Definition read_current_block : M TapeDevice (TapeBlock * float) :=
  let* d := get in
  if vector_size (blocks d) <=? current_position d then
    throw (out_of_range "Position out of range")
  else
    match blocks d !! N.to_nat (current_position d) with
    | Some block =>
        let time := (double_of_size_t (vector_size (data block)) / read_speed d)%float in
        ret (block, time)
    | None => throw (out_of_range "Position out of range")
    end.

(** [std::abs(static_cast<int64_t>(a) - static_cast<int64_t>(b))] stored in
    a [size_t]. *)
Definition seek_distance (block_index current : N) : N :=
  wrap64 (Z.abs (to_int64 (wrap64 (to_int64 block_index - to_int64 current)))).

Definition seek_to_block (block_index : N) : M TapeDevice float :=
  let* d := get in
  if vector_size (blocks d) <=? block_index then
    throw (out_of_range "Block index out of range")
  else
    let distance := seek_distance block_index (current_position d) in
    let time := (double_of_size_t distance * seek_time_per_block d)%float in
    let* _ := put (set_current_position d block_index) in
    ret time.

Definition move_forward (n : N) : M TapeDevice float :=
  let* d := get in
  let new_pos := add64 (current_position d) n in
  let new_pos :=
    if vector_size (blocks d) <=? new_pos then sub64 (vector_size (blocks d)) 1
    else new_pos in
  seek_to_block new_pos.

Definition move_backward (n : N) : M TapeDevice float :=
  let* d := get in
  let new_pos :=
    if n <=? current_position d then sub64 (current_position d) n else 0 in
  seek_to_block new_pos.

Definition get_current_position : M TapeDevice N :=
  let* d := get in ret (current_position d).

Definition get_block_count : M TapeDevice N :=
  let* d := get in ret (vector_size (blocks d)).

Definition get_block (index : N) : M TapeDevice TapeBlock :=
  let* d := get in
  if vector_size (blocks d) <=? index then
    throw (out_of_range "Block index out of range")
  else
    match blocks d !! N.to_nat index with
    | Some block => ret block
    | None => throw (out_of_range "Block index out of range")
    end.

Definition reset : M TapeDevice unit :=
  let* d := get in
  put (set_current_position (set_blocks d []) 0).

(** ** The strategy without an index *)

Module NoIndexStrategy.

Definition build_index : M TapeDevice float := ret 0%float.

(** The [for] loop of [find_block], entered with counter [i] and the time
    accumulated so far. *)
Fixpoint find_block_loop (fuel : nat) (data_id original_pos i : N) (time : float)
  : M TapeDevice (N * float) :=
  let* count := get_block_count in
  if i <? count then
    match fuel with
    | O => out_of_fuel
    | S fuel' =>
        let* count := get_block_count in
        let pos := add64 original_pos i mod count in
        let* seek_time := seek_to_block pos in
        let time := (time + seek_time)%float in
        let* (block, read_time) := read_current_block in
        let time := (time + read_time)%float in
        if negb (is_index_block block) && (block_id block =? data_id) then
          ret (pos, time)
        else
          find_block_loop fuel' data_id original_pos (add64 i 1) time
    end
  else ret (npos, time).

(** The counter grows at every pass and the block count is fixed, so the
    block count is fuel enough. *)
Definition find_block (data_id : N) : M TapeDevice (N * float) :=
  let time := 0%float in
  let* original_pos := get_current_position in
  let* d := get in
  find_block_loop (length (blocks d)) data_id original_pos 0 time.

End NoIndexStrategy.

(** ** The fixed-interval strategy *)

Module FixedIntervalIndexStrategy.

Record t : Type := mk {
  interval : N;
  index_map : gmap N N
}.

Definition new (interval : N) : t := mk interval ∅.

Definition set_index_map (self : t) (m : gmap N N) : t := mk (interval self) m.

(** [index_map[key] = value] *)
Definition index_map_store {Tape} (key value : N) : M (t * Tape) unit :=
  on_self (let* self := get in
           put (set_index_map self (<[key := value]> (index_map self)))).

Definition index_map_size {Tape} : M (t * Tape) N :=
  on_self (let* self := get in ret (N.of_nat (size (index_map self)))).

(** Body of the [for] loop of [build_index] at counter [i]; yields the
    updated clock. *)
Definition build_index_body (i : N) (time : float) : M (t * TapeDevice) float :=
  let* (block, read_time) := on_tape read_current_block in
  let time := (time + read_time)%float in
  let* time :=
    if negb (is_index_block block) then
      let* _ := index_map_store (block_id block) i in
      let* entries := index_map_size in
      let* self := on_self get in
      let* r := umod entries (interval self) in
      if r =? 0 then
        let index_data : list Byte.byte := [] in
        let index_block :=
          mkTapeBlock (add64 (block_id block) 1000000) index_data true in
        let* write_time := on_tape (write_block index_block) in
        let time := (time + write_time)%float in
        let* move_time := on_tape (move_forward 1) in
        ret (time + move_time)%float
      else ret time
    else ret time in
  let* count := on_tape get_block_count in
  if i <? sub64 count 1 then
    let* move_time := on_tape (move_forward 1) in
    ret (time + move_time)%float
  else ret time.

(** The loop itself; its bound [tape.get_block_count()] is read again at
    every pass. *)
Fixpoint build_index_loop (fuel : nat) (i : N) (time : float)
  : M (t * TapeDevice) float :=
  let* count := on_tape get_block_count in
  if i <? count then
    match fuel with
    | O => out_of_fuel
    | S fuel' =>
        let* time := build_index_body i time in
        build_index_loop fuel' (add64 i 1) time
    end
  else ret time.

(** Every pass of the loop either advances [i] towards the block count or
    consumes a data block that lies ahead of the head, so twice the
    initial block count bounds the number of passes. *)
Definition build_index : M (t * TapeDevice) float :=
  let* _ := on_self (let* self := get in put (set_index_map self ∅)) in
  let time := 0%float in
  let* original_pos := on_tape get_current_position in
  let* seek_time := on_tape (seek_to_block 0) in
  let time := (time + seek_time)%float in
  let* st := get in
  let* time := build_index_loop (2 * length (blocks (snd st))) 0 time in
  let* seek_time := on_tape (seek_to_block original_pos) in
  let time := (time + seek_time)%float in
  ret time.

Definition find_block (data_id : N) : M (t * TapeDevice) (N * float) :=
  let time := 0%float in
  let* self := on_self get in
  match index_map self !! data_id with
  | None => ret (npos, 0%float)
  | Some target_pos =>
      let* seek_time := on_tape (seek_to_block target_pos) in
      let time := (time + seek_time)%float in
      let* (block, read_time) := on_tape read_current_block in
      let time := (time + read_time)%float in
      if negb (block_id block =? data_id) then ret (npos, time)
      else ret (target_pos, time)
  end.

End FixedIntervalIndexStrategy.

(** ** The two-level strategy *)

Module HierarchicalIndexStrategy.

Record t : Type := mk {
  level1_interval : N;
  level2_interval : N;
  index_map : gmap N (N * N)
}.

Definition new (level1 level2 : N) : t := mk level1 level2 ∅.

Definition set_index_map (self : t) (m : gmap N (N * N)) : t :=
  mk (level1_interval self) (level2_interval self) m.

Definition index_map_store {Tape} (key : N) (value : N * N) : M (t * Tape) unit :=
  on_self (let* self := get in
           put (set_index_map self (<[key := value]> (index_map self)))).

Definition level2_block : TapeBlock := mkTapeBlock 1000000 [] true.
Definition level1_block : TapeBlock := mkTapeBlock 2000000 [] true.

(** Body of the first loop of [build_index] at counter [i]. *)
Definition collect_body (block_count i : N) (data_blocks : list (N * N))
    (time : float) : M TapeDevice (list (N * N) * float) :=
  let* (block, read_time) := read_current_block in
  let time := (time + read_time)%float in
  let data_blocks :=
    if negb (is_index_block block) then data_blocks ++ [(block_id block, i)]
    else data_blocks in
  if i <? sub64 block_count 1 then
    let* move_time := move_forward 1 in
    ret (data_blocks, (time + move_time)%float)
  else ret (data_blocks, time).

(** First loop of [build_index]: one forward walk over the [block_count]
    blocks present at the call, collecting the data blocks. *)
Fixpoint collect_loop (fuel : nat) (block_count i : N)
    (data_blocks : list (N * N)) (time : float)
  : M TapeDevice (list (N * N) * float) :=
  if i <? block_count then
    match fuel with
    | O => out_of_fuel
    | S fuel' =>
        let* (data_blocks, time) := collect_body block_count i data_blocks time in
        collect_loop fuel' block_count (add64 i 1) data_blocks time
    end
  else ret (data_blocks, time).

(** Second loop: [rest] is [data_blocks] from index [i] on. *)
Fixpoint assign_loop {Tape} (rest : list (N * N)) (i : N) : M (t * Tape) unit :=
  match rest with
  | [] => ret tt
  | (id, pos) :: rest' =>
      let* self := on_self get in
      let* level2_idx := udiv i (level2_interval self) in
      let* level1_idx := udiv level2_idx (level1_interval self) in
      let* _ := index_map_store id (level1_idx, level2_idx) in
      assign_loop rest' (add64 i 1)
  end.

Definition build_index : M (t * TapeDevice) float :=
  let* _ := on_self (let* self := get in put (set_index_map self ∅)) in
  let time := 0%float in
  let* original_pos := on_tape get_current_position in
  let* block_count := on_tape get_block_count in
  let* seek_time := on_tape (seek_to_block 0) in
  let time := (time + seek_time)%float in
  let* (data_blocks, time) :=
    on_tape (collect_loop (N.to_nat block_count) block_count 0 [] time) in
  let* write_time := on_tape (write_block level2_block) in
  let time := (time + write_time)%float in
  let* write_time := on_tape (write_block level1_block) in
  let time := (time + write_time)%float in
  let* _ := assign_loop data_blocks 0 in
  let* seek_time := on_tape (seek_to_block original_pos) in
  let time := (time + seek_time)%float in
  ret time.

Definition find_block (data_id : N) : M (t * TapeDevice) (N * float) :=
  let time := 0%float in
  let* self := on_self get in
  match index_map self !! data_id with
  | None => ret (npos, 0%float)
  | Some (level1_idx, level2_idx) =>
      let* count := on_tape get_block_count in
      let level1_pos := sub64 count 2 in
      let* seek_time := on_tape (seek_to_block level1_pos) in
      let time := (time + seek_time)%float in
      let* (_, read_time) := on_tape read_current_block in
      let time := (time + read_time)%float in
      let level2_pos := sub64 count 1 in
      let* seek_time := on_tape (seek_to_block level2_pos) in
      let time := (time + seek_time)%float in
      let* (_, read_time) := on_tape read_current_block in
      let time := (time + read_time)%float in
      let target_pos :=
        mul64 (add64 (mul64 level1_idx (level1_interval self)) level2_idx)
              (level2_interval self) in
      let target_pos :=
        if sub64 count 2 <=? target_pos then sub64 count 3 else target_pos in
      let* seek_time := on_tape (seek_to_block target_pos) in
      let time := (time + seek_time)%float in
      let* (block, read_time) := on_tape read_current_block in
      let time := (time + read_time)%float in
      if negb (block_id block =? data_id) then ret (npos, time)
      else ret (target_pos, time)
  end.

End HierarchicalIndexStrategy.

(** ** The strategy interface and the factory *)

Inductive IndexStrategy : Type :=
| NoIndex
| FixedInterval (s : FixedIntervalIndexStrategy.t)
| Hierarchical (s : HierarchicalIndexStrategy.t).

(** Virtual dispatch of [IndexStrategy::build_index]. *)
Definition build_index : M (IndexStrategy * TapeDevice) float :=
  fun st =>
    match fst st with
    | NoIndex =>
        let '(r, tape') := NoIndexStrategy.build_index (snd st) in
        (r, (NoIndex, tape'))
    | FixedInterval s =>
        let '(r, (s', tape')) := FixedIntervalIndexStrategy.build_index (s, snd st) in
        (r, (FixedInterval s', tape'))
    | Hierarchical s =>
        let '(r, (s', tape')) := HierarchicalIndexStrategy.build_index (s, snd st) in
        (r, (Hierarchical s', tape'))
    end.

(** Virtual dispatch of [IndexStrategy::find_block]. *)
Definition find_block (data_id : N) : M (IndexStrategy * TapeDevice) (N * float) :=
  fun st =>
    match fst st with
    | NoIndex =>
        let '(r, tape') := NoIndexStrategy.find_block data_id (snd st) in
        (r, (NoIndex, tape'))
    | FixedInterval s =>
        let '(r, (s', tape')) :=
          FixedIntervalIndexStrategy.find_block data_id (s, snd st) in
        (r, (FixedInterval s', tape'))
    | Hierarchical s =>
        let '(r, (s', tape')) :=
          HierarchicalIndexStrategy.find_block data_id (s, snd st) in
        (r, (Hierarchical s', tape'))
    end.

(** [IndexStrategyFactory::create_strategy]; [None] stands for the
    [std::invalid_argument] thrown on an unknown name. *)
Definition create_strategy (type : string) (param1 param2 : N) : option IndexStrategy :=
  if String.eqb type "none" then Some NoIndex
  else if String.eqb type "fixed" then
    Some (FixedInterval
            (FixedIntervalIndexStrategy.new (if 0 <? param1 then param1 else 10)))
  else if String.eqb type "hierarchical" then
    Some (Hierarchical
            (HierarchicalIndexStrategy.new (if 0 <? param1 then param1 else 100)
                                           (if 0 <? param2 then param2 else 10)))
  else None.

(** * Definitions used in the statements *)

(** ** Costs and distances *)

(** [|a - b|] on mathematical integers. *)
Definition abs_diff (a b : N) : N := Z.to_N (Z.abs (Z.of_N a - Z.of_N b)).

(** Simulated cost of moving the head of [d] to [target], and of reading
    [block] on [d]. *)
Definition seek_cost (d : TapeDevice) (target : N) : float :=
  (double_of_size_t (seek_distance target (current_position d))
   * seek_time_per_block d)%float.

Definition read_cost (d : TapeDevice) (block : TapeBlock) : float :=
  (double_of_size_t (vector_size (data block)) / read_speed d)%float.

Definition write_cost (d : TapeDevice) (block : TapeBlock) : float :=
  (double_of_size_t (vector_size (data block)) / write_speed d)%float.

(** [move_forward] on a device with at least one block: the target of the
    seek it delegates to. *)
Definition forward_target (d : TapeDevice) (n : N) : N :=
  let new_pos := add64 (current_position d) n in
  if vector_size (blocks d) <=? new_pos then sub64 (vector_size (blocks d)) 1
  else new_pos.

(** ** Well-formed devices and strategies *)

(** A vector of blocks never comes near [2^62] elements (its [max_size()]
    is [PTRDIFF_MAX / sizeof(TapeBlock)]). *)
Definition MAX_BLOCKS : N := 2 ^ 62.

(** The state of a [TapeDevice] object between two calls: the head is a
    valid index, or the device is empty and the head is at 0. *)
Definition wf_device (d : TapeDevice) : Prop :=
  vector_size (blocks d) < MAX_BLOCKS /\
  (current_position d < vector_size (blocks d) \/
   (current_position d = 0 /\ blocks d = [])).

(** The head lies in [[0, length - 1]]. *)
Definition head_in_range (d : TapeDevice) : Prop :=
  (0 <= Z.of_N (current_position d) <= Z.of_N (vector_size (blocks d)) - 1)%Z.

(** A strategy whose intervals are positive; the factory builds no other,
    and a zero interval makes [build_index] divide by zero. *)
Definition wf_strategy (strategy : IndexStrategy) : Prop :=
  match strategy with
  | NoIndex => True
  | FixedInterval s => 0 < FixedIntervalIndexStrategy.interval s
  | Hierarchical s =>
      0 < HierarchicalIndexStrategy.level1_interval s
      /\ 0 < HierarchicalIndexStrategy.level2_interval s
  end.

(** ** The circular scan *)

(** Position visited at step [k] of a scan that started at [start]. *)
Definition scan_position (d : TapeDevice) (start : N) (k : nat) : N :=
  (start + N.of_nat k) mod vector_size (blocks d).

(** Number of steps from the head of [d] to position [p], going forward
    and wrapping at the end of the tape. *)
Definition scan_distance (d : TapeDevice) (p : N) : nat :=
  N.to_nat ((p + vector_size (blocks d) - current_position d)
            mod vector_size (blocks d)).

Definition read_cost_at (d : TapeDevice) (pos : N) : float :=
  match blocks d !! N.to_nat pos with
  | Some block => read_cost d block
  | None => 0%float
  end.

(** Time on the clock after visiting [steps] blocks from step [k] on, the
    head being at [head] and the clock at [time] before the first of them:
    each visit adds the seek over the distance to the block, then its read. *)
Fixpoint scan_cost_from (d : TapeDevice) (start head : N) (time : float)
    (k steps : nat) : float :=
  match steps with
  | O => time
  | S steps' =>
      let pos := scan_position d start k in
      let time :=
        (time + double_of_size_t (abs_diff pos head) * seek_time_per_block d)%float in
      let time := (time + read_cost_at d pos)%float in
      scan_cost_from d start pos time (S k) steps'
  end.

(** Cost of scanning [steps] blocks from the head of [d]. *)
Definition scan_cost (d : TapeDevice) (steps : nat) : float :=
  scan_cost_from d (current_position d) (current_position d) 0%float 0 steps.

(** The test of the loop on the block stored at [pos]. *)
Definition block_matches (d : TapeDevice) (data_id pos : N) : bool :=
  match blocks d !! N.to_nat pos with
  | Some block => negb (is_index_block block) && (block_id block =? data_id)
  | None => false
  end.

(** ** Data blocks ahead of the head *)

(** Number of data blocks in a sequence. *)
Fixpoint count_data (bs : list TapeBlock) : nat :=
  match bs with
  | [] => 0
  | block :: bs' => (if is_index_block block then 0 else 1) + count_data bs'
  end.


(** ** Sample devices *)

Definition data_block (id : N) (payload : list Byte.byte) : TapeBlock :=
  mkTapeBlock id payload false.

Definition payload3 : list Byte.byte := [Byte.x00; Byte.x01; Byte.x02].

(** Four blocks; the one at position 2 is an index block. *)
Definition sample_tape : TapeDevice :=
  set_blocks TapeDevice_default
    [data_block 7 payload3; data_block 5 []; mkTapeBlock 1000005 [] true;
     data_block 9 payload3].

(** One block on a device constructed with an infinite seek time; the
    constructor takes any [double]. *)
Definition infinite_seek_tape : TapeDevice :=
  set_blocks (TapeDevice_new 4096 1048576%float 524288%float infinity)
    [data_block 7 payload3].


Definition sample_hierarchical : HierarchicalIndexStrategy.t :=
  HierarchicalIndexStrategy.new 100 10.

(** ** The scenario of 100 data blocks with interval 10 *)

(** Data blocks with identifiers 1..100 on a device with the default
    timing, head at 0. *)
Definition scenario_blocks : list TapeBlock :=
  map (fun k => data_block (N.of_nat k) payload3) (seq 1 100).

Definition scenario_tape : TapeDevice := set_blocks TapeDevice_default scenario_blocks.

(** The fixed-interval strategy with interval 10, built over the scenario. *)
Definition scenario_built
  : outcome float * (FixedIntervalIndexStrategy.t * TapeDevice) :=
  FixedIntervalIndexStrategy.build_index
    (FixedIntervalIndexStrategy.new 10, scenario_tape).

(** * Properties *)

(** ** Machine arithmetic without overflow *)

Lemma SIZE_MODULUS_eq : SIZE_MODULUS = 18446744073709551616.
Proof. reflexivity. Qed.

Lemma wrap64_small (z : Z) :
  (0 <= z < 18446744073709551616)%Z -> wrap64 z = Z.to_N z.
Proof.
  intros Hz. unfold wrap64. rewrite SIZE_MODULUS_eq.
  now rewrite Z.mod_small.
Qed.

Lemma add64_small (a b : N) : a + b < SIZE_MODULUS -> add64 a b = a + b.
Proof.
  rewrite SIZE_MODULUS_eq. intros H. unfold add64.
  rewrite wrap64_small by lia. lia.
Qed.

Lemma sub64_small (a b : N) : b <= a -> a < SIZE_MODULUS -> sub64 a b = a - b.
Proof.
  rewrite SIZE_MODULUS_eq. intros Hle H. unfold sub64.
  rewrite wrap64_small by lia. lia.
Qed.

Lemma sub64_underflow (b : N) :
  0 < b -> b <= SIZE_MODULUS -> sub64 0 b = SIZE_MODULUS - b.
Proof.
  rewrite SIZE_MODULUS_eq. intros Hb Hle. unfold sub64, wrap64.
  rewrite SIZE_MODULUS_eq.
  replace (Z.of_N 0 - Z.of_N b)%Z
    with ((18446744073709551616 - Z.of_N b) + (-1) * 18446744073709551616)%Z by lia.
  rewrite Z.mod_add by lia. rewrite Z.mod_small by lia. lia.
Qed.

Lemma to_int64_small (x : N) : x < 2 ^ 63 -> to_int64 x = Z.of_N x.
Proof.
  change (2 ^ 63) with 9223372036854775808. intros H.
  unfold to_int64. rewrite SIZE_MODULUS_eq.
  rewrite Z.mod_small by lia.
  destruct (Z.ltb_spec (Z.of_N x) (2 ^ 63)) as [_ | Hge]; [reflexivity |].
  change (2 ^ 63)%Z with 9223372036854775808%Z in Hge. lia.
Qed.

Lemma seek_distance_small (a b : N) :
  a < 2 ^ 63 -> b < 2 ^ 63 -> seek_distance a b = abs_diff a b.
Proof.
  intros Ha Hb. unfold seek_distance, abs_diff.
  rewrite (to_int64_small a), (to_int64_small b) by assumption.
  change (2 ^ 63) with 9223372036854775808 in *.
  unfold to_int64, wrap64. rewrite SIZE_MODULUS_eq.
  change (Z.of_N 18446744073709551616) with 18446744073709551616%Z.
  change (2 ^ 63)%Z with 9223372036854775808%Z.
  rewrite Z2N.id by (apply Z.mod_pos_bound; lia).
  rewrite Z.mod_mod by lia.
  destruct (Z.ltb_spec ((Z.of_N a - Z.of_N b) mod 18446744073709551616)
                       9223372036854775808);
    f_equal; Z.div_mod_to_equations; lia.
Qed.

(** ** Running computations *)

(** Running a [bind] whose first computation returns. *)
Lemma bind_returned {St A B} (c : M St A) (k : A -> M St B) (s s' : St) (a : A) :
  c s = (Returned a, s') -> bind c k s = k a s'.
Proof. intros H. unfold bind. rewrite H. reflexivity. Qed.

Lemma bind_thrown {St A B} (c : M St A) (k : A -> M St B) (s s' : St) (e : exn) :
  c s = (Thrown e, s') -> bind c k s = (Thrown e, s').
Proof. intros H. unfold bind. rewrite H. reflexivity. Qed.

Lemma on_tape_returned {Self Tape A} (c : M Tape A) (self : Self)
    (tape tape' : Tape) (a : A) :
  c tape = (Returned a, tape') -> on_tape c (self, tape) = (Returned a, (self, tape')).
Proof. intros H. unfold on_tape. simpl. rewrite H. reflexivity. Qed.


Lemma udiv_ok {St} (a b : N) (s : St) : 0 < b -> udiv a b s = (Returned (a / b), s).
Proof.
  intros Hb. unfold udiv. destruct (N.eqb_spec b 0); [lia | reflexivity].
Qed.

Ltac run_with H := erewrite bind_returned by (exact H); cbv beta iota.

Arguments seek_to_block : simpl never.
Arguments read_current_block : simpl never.
Arguments write_block : simpl never.
Arguments move_forward : simpl never.
Arguments move_backward : simpl never.

(** ** The device *)

Lemma MAX_BLOCKS_eq : MAX_BLOCKS = 4611686018427387904.
Proof. reflexivity. Qed.

Lemma vector_size_nil {A} : vector_size (@nil A) = 0.
Proof. reflexivity. Qed.

Lemma vector_size_app {A} (u v : list A) :
  vector_size (u ++ v) = vector_size u + vector_size v.
Proof. unfold vector_size. rewrite length_app. lia. Qed.

Lemma vector_size_pos {A} (v : list A) : v <> [] -> 0 < vector_size v.
Proof. destruct v; [congruence | unfold vector_size; simpl; lia]. Qed.

Lemma lookup_in_range (bs : list TapeBlock) (p : N) :
  p < vector_size bs -> exists block, bs !! N.to_nat p = Some block.
Proof.
  unfold vector_size. intros Hp.
  destruct (bs !! N.to_nat p) as [block |] eqn:E; [eauto |].
  apply lookup_ge_None in E. lia.
Qed.

Lemma lookup_range (bs : list TapeBlock) (p : N) (block : TapeBlock) :
  bs !! N.to_nat p = Some block -> p < vector_size bs.
Proof. unfold vector_size. intros E. apply lookup_lt_Some in E. lia. Qed.

Lemma seek_to_block_ok (idx : N) (d : TapeDevice) :
  idx < vector_size (blocks d) ->
  seek_to_block idx d = (Returned (seek_cost d idx), set_current_position d idx).
Proof.
  intros H. unfold seek_to_block, bind, get. simpl.
  destruct (N.leb_spec (vector_size (blocks d)) idx); [lia | reflexivity].
Qed.

Lemma seek_to_block_fail (idx : N) (d : TapeDevice) :
  vector_size (blocks d) <= idx ->
  seek_to_block idx d = (Thrown (out_of_range "Block index out of range"), d).
Proof.
  intros H. unfold seek_to_block, bind, get. simpl.
  destruct (N.leb_spec (vector_size (blocks d)) idx); [reflexivity | lia].
Qed.

Lemma read_current_block_ok (d : TapeDevice) (block : TapeBlock) :
  blocks d !! N.to_nat (current_position d) = Some block ->
  read_current_block d = (Returned (block, read_cost d block), d).
Proof.
  intros E. pose proof (lookup_range _ _ _ E) as Hlt.
  unfold read_current_block, bind, get. simpl.
  destruct (N.leb_spec (vector_size (blocks d)) (current_position d)); [lia |].
  rewrite E. reflexivity.
Qed.

Lemma read_current_block_fail (d : TapeDevice) :
  vector_size (blocks d) <= current_position d ->
  read_current_block d = (Thrown (out_of_range "Position out of range"), d).
Proof.
  intros H. unfold read_current_block, bind, get. simpl.
  destruct (N.leb_spec (vector_size (blocks d)) (current_position d));
    [reflexivity | lia].
Qed.

Lemma write_block_run (block : TapeBlock) (d : TapeDevice) :
  write_block block d
    = (Returned (write_cost d block), set_blocks d (blocks d ++ [block])).
Proof. reflexivity. Qed.

Lemma forward_target_in_range (d : TapeDevice) (n : N) :
  0 < vector_size (blocks d) -> vector_size (blocks d) < SIZE_MODULUS ->
  forward_target d n < vector_size (blocks d).
Proof.
  intros Hpos Hmax. unfold forward_target.
  destruct (N.leb_spec (vector_size (blocks d)) (add64 (current_position d) n)).
  - rewrite sub64_small; [lia | lia | assumption].
  - assumption.
Qed.

Lemma move_forward_ok (n : N) (d : TapeDevice) :
  0 < vector_size (blocks d) -> vector_size (blocks d) < SIZE_MODULUS ->
  move_forward n d =
    (Returned (seek_cost d (forward_target d n)),
     set_current_position d (forward_target d n)).
Proof.
  intros Hpos Hmax.
  pose proof (forward_target_in_range d n Hpos Hmax) as Hlt.
  unfold move_forward, bind at 1, get. simpl.
  apply (seek_to_block_ok (forward_target d n) d Hlt).
Qed.


Lemma MAX_BLOCKS_lt_SIZE_MODULUS (x : N) : x < MAX_BLOCKS -> x < SIZE_MODULUS.
Proof. rewrite MAX_BLOCKS_eq, SIZE_MODULUS_eq. lia. Qed.

Lemma set_current_position_same (d : TapeDevice) :
  set_current_position d (current_position d) = d.
Proof. destruct d; reflexivity. Qed.

Lemma seek_to_block_keeps_blocks (idx : N) (d : TapeDevice) :
  blocks (snd (seek_to_block idx d)) = blocks d.
Proof.
  destruct (N.leb_spec (vector_size (blocks d)) idx).
  - rewrite seek_to_block_fail by assumption. reflexivity.
  - rewrite seek_to_block_ok by assumption. reflexivity.
Qed.

(** The class invariant is established by the constructor and kept by
    every method (by [write_block] as long as the vector can grow). *)
Lemma wf_device_new bsz rs ws st : wf_device (TapeDevice_new bsz rs ws st).
Proof. split; [reflexivity | right; split; reflexivity]. Qed.

Lemma wf_device_seek (idx : N) (d : TapeDevice) :
  wf_device d -> wf_device (snd (seek_to_block idx d)).
Proof.
  intros Hwf. destruct (N.leb_spec (vector_size (blocks d)) idx) as [Hge | Hlt].
  - rewrite seek_to_block_fail by assumption. exact Hwf.
  - rewrite seek_to_block_ok by assumption. destruct Hwf as [Hmax _].
    split; [exact Hmax | left; exact Hlt].
Qed.

Lemma wf_device_write (block : TapeBlock) (d : TapeDevice) :
  wf_device d -> vector_size (blocks d) + 1 < MAX_BLOCKS ->
  wf_device (snd (write_block block d)).
Proof.
  intros [Hmax Hhead] Hroom. rewrite write_block_run. simpl.
  unfold wf_device. simpl. rewrite vector_size_app.
  change (vector_size [block]) with 1.
  split; [exact Hroom |]. left. destruct Hhead as [H | [H _]]; lia.
Qed.

Lemma wf_device_reset (d : TapeDevice) : wf_device (snd (reset d)).
Proof. split; [reflexivity | right; split; reflexivity]. Qed.

(** In binary64 arithmetic [0 * x] compares equal to zero for every finite
    [x] (it is [-0] for a negative [x], and NaN for an infinite one). *)
Lemma zero_times_finite (x : float) :
  is_finite x = true -> ((double_of_size_t 0 * x) =? 0)%float = true.
Proof.
  intros Hfin. change (double_of_size_t 0) with 0%float.
  rewrite FloatAxioms.eqb_spec, FloatAxioms.mul_spec.
  unfold is_finite, is_nan, is_infinity in Hfin.
  rewrite !FloatAxioms.eqb_spec, FloatAxioms.abs_spec in Hfin.
  destruct (Prim2SF x) as [s | s | | s m e];
    try (destruct s; vm_compute; reflexivity).
  - destruct s; vm_compute in Hfin; discriminate.
  - vm_compute in Hfin. discriminate.
Qed.

(** C6. [read_current_block] throws [std::out_of_range] exactly when the
    head position is at or beyond the number of blocks, hence always on a
    device without blocks; [seek_to_block] throws it exactly when the
    target is at or beyond the number of blocks. *)
Theorem out_of_range_conditions (d : TapeDevice) (target : N) :
  ((exists what, fst (read_current_block d) = Thrown (out_of_range what))
     <-> vector_size (blocks d) <= current_position d)
  /\ (exists what,
        fst (read_current_block (set_blocks d [])) = Thrown (out_of_range what))
  /\ ((exists what, fst (seek_to_block target d) = Thrown (out_of_range what))
     <-> vector_size (blocks d) <= target).
Proof.
  split; [| split].
  - split.
    + intros [what Hthrown].
      destruct (N.leb_spec (vector_size (blocks d)) (current_position d))
        as [Hge | Hlt]; [exact Hge |].
      destruct (lookup_in_range _ _ Hlt) as [block E].
      rewrite (read_current_block_ok d block E) in Hthrown. discriminate.
    + intros Hge. rewrite read_current_block_fail by assumption. eauto.
  - rewrite read_current_block_fail; [eauto |].
    simpl. rewrite vector_size_nil. lia.
  - split.
    + intros [what Hthrown].
      destruct (N.leb_spec (vector_size (blocks d)) target) as [Hge | Hlt];
        [exact Hge |].
      rewrite seek_to_block_ok in Hthrown by assumption. discriminate.
    + intros Hge. rewrite seek_to_block_fail by assumption. eauto.
Qed.

(** C10. A [seek_to_block] or a [read_current_block] that throws leaves
    the device (head position and block sequence) as it was. *)
Theorem failed_access_keeps_device (d : TapeDevice) (target : N) (e : exn) :
  (fst (seek_to_block target d) = Thrown e -> snd (seek_to_block target d) = d)
  /\ (fst (read_current_block d) = Thrown e -> snd (read_current_block d) = d).
Proof.
  split.
  - destruct (N.leb_spec (vector_size (blocks d)) target) as [Hge | Hlt].
    + rewrite seek_to_block_fail by assumption. reflexivity.
    + rewrite seek_to_block_ok by assumption. discriminate.
  - destruct (N.leb_spec (vector_size (blocks d)) (current_position d))
      as [Hge | Hlt].
    + rewrite read_current_block_fail by assumption. reflexivity.
    + destruct (lookup_in_range _ _ Hlt) as [block E].
      rewrite (read_current_block_ok d block E). reflexivity.
Qed.

Lemma failed_access_keeps_device_witness :
  fst (seek_to_block 3 TapeDevice_default)
    = Thrown (out_of_range "Block index out of range")
  /\ snd (seek_to_block 3 TapeDevice_default) = TapeDevice_default
  /\ fst (read_current_block TapeDevice_default)
    = Thrown (out_of_range "Position out of range")
  /\ snd (read_current_block TapeDevice_default) = TapeDevice_default.
Proof.
  pose proof (failed_access_keeps_device TapeDevice_default 3
                (out_of_range "Block index out of range")) as [Hseek _].
  pose proof (failed_access_keeps_device TapeDevice_default 3
                (out_of_range "Position out of range")) as [_ Hread].
  split; [reflexivity |].
  split; [apply Hseek; reflexivity |].
  split; [reflexivity |].
  apply Hread; reflexivity.
Defined.

(** C4 as stated does not hold on every device.  The head does move to the
    target, but with an infinite seek time a seek over zero distance costs
    [0 * infinity], which is NaN in binary64 arithmetic and not zero. *)
Lemma zero_distance_seek_cost_not_zero :
  wf_device infinite_seek_tape
  /\ 0 < vector_size (blocks infinite_seek_tape)
  /\ current_position infinite_seek_tape = 0
  /\ exists cost,
       fst (seek_to_block 0 infinite_seek_tape) = Returned cost
       /\ current_position (snd (seek_to_block 0 infinite_seek_tape)) = 0
       /\ is_nan cost = true
       /\ (cost =? 0)%float = false.
Proof.
  split; [split; [reflexivity | left; reflexivity] |].
  split; [reflexivity |]. split; [reflexivity |].
  eexists. split; [vm_compute; reflexivity |].
  split; [reflexivity |]. split; vm_compute; reflexivity.
Qed.

(** C4, amended. On a device with at least one block, [seek_to_block target]
    with [target] below the block count returns, a following
    [get_current_position] yields [target], and the cost is
    [|target - previous head|] (converted to [double]) times
    [seek_time_per_block]; for a zero distance and a finite seek time that
    product compares equal to zero. *)
Theorem seek_sets_head_and_costs_distance (d : TapeDevice) (target : N) :
  wf_device d ->
  target < vector_size (blocks d) ->
  let cost :=
    (double_of_size_t (abs_diff target (current_position d))
     * seek_time_per_block d)%float in
  exists d',
    seek_to_block target d = (Returned cost, d')
    /\ get_current_position d' = (Returned target, d')
    /\ blocks d' = blocks d
    /\ (target = current_position d ->
        is_finite (seek_time_per_block d) = true ->
        (cost =? 0)%float = true).
Proof.
  intros [Hmax Hhead] Hlt cost. rewrite MAX_BLOCKS_eq in Hmax.
  assert (Hcur : current_position d < vector_size (blocks d)) by lia.
  exists (set_current_position d target).
  split; [| split; [| split]].
  - rewrite seek_to_block_ok by assumption. unfold seek_cost, cost.
    rewrite seek_distance_small
      by (change (2 ^ 63) with 9223372036854775808; lia).
    reflexivity.
  - reflexivity.
  - reflexivity.
  - intros Heq Hfin. unfold cost. rewrite Heq.
    replace (abs_diff (current_position d) (current_position d)) with 0
      by (unfold abs_diff; lia).
    apply zero_times_finite; assumption.
Qed.

Lemma wf_sample_tape : wf_device sample_tape.
Proof. split; [reflexivity | left; reflexivity]. Defined.

Lemma seek_sets_head_and_costs_distance_witness :
  (exists d',
      seek_to_block 2 sample_tape
        = (Returned (double_of_size_t 2 * default_seek_time)%float, d')
      /\ get_current_position d' = (Returned 2, d')
      /\ blocks d' = blocks sample_tape)
  /\ (exists d',
      seek_to_block 0 sample_tape
        = (Returned (double_of_size_t 0 * default_seek_time)%float, d')
      /\ get_current_position d' = (Returned 0, d')
      /\ ((double_of_size_t 0 * default_seek_time) =? 0)%float = true).
Proof.
  split.
  - destruct (seek_sets_head_and_costs_distance sample_tape 2 wf_sample_tape)
      as (d' & Hseek & Hhead & Hblocks & _); [reflexivity |].
    exists d'. split; [exact Hseek |]. split; [exact Hhead | exact Hblocks].
  - destruct (seek_sets_head_and_costs_distance sample_tape 0 wf_sample_tape)
      as (d' & Hseek & Hhead & _ & Hzero); [reflexivity |].
    exists d'. split; [exact Hseek |]. split; [exact Hhead |].
    apply Hzero; reflexivity.
Defined.

(** C5 as stated does not hold on every device and for every [n].  On a
    device without blocks both moves throw and the head stays at 0, which
    is not inside [[0, length - 1]].  And a forward move whose sum
    [head + n] overflows [size_t] wraps around before the clamp: from
    position 1 of four blocks, [move_forward (2^64 - 1)] lands on 0, not on
    the last position 3. *)
Lemma moves_do_not_always_clamp :
  fst (move_forward 1 TapeDevice_default)
    = Thrown (out_of_range "Block index out of range")
  /\ fst (move_backward 1 TapeDevice_default)
    = Thrown (out_of_range "Block index out of range")
  /\ ~ head_in_range (snd (move_forward 1 TapeDevice_default))
  /\ ~ head_in_range (snd (move_backward 1 TapeDevice_default))
  /\ vector_size (blocks sample_tape) = 4
  /\ current_position
       (snd (move_forward (SIZE_MODULUS - 1) (set_current_position sample_tape 1)))
     = 0.
Proof.
  split; [reflexivity |]. split; [reflexivity |].
  split; [intros [_ H]; vm_compute in H; apply H; reflexivity |].
  split; [intros [_ H]; vm_compute in H; apply H; reflexivity |].
  split; reflexivity.
Qed.

(** C5, amended. On a device with at least one block, [move_forward n] and
    [move_backward n] return and leave the head inside [[0, length - 1]];
    [move_forward] puts the head at [length - 1] when [head + n] (not
    wrapping) reaches the length and at [head + n] otherwise;
    [move_backward] puts it at 0 when [n] reaches the head and at
    [head - n] otherwise. *)
Theorem moves_clamp_on_nonempty_device (d : TapeDevice) (n : N) :
  wf_device d ->
  blocks d <> [] ->
  (exists t d',
      move_forward n d = (Returned t, d')
      /\ blocks d' = blocks d
      /\ head_in_range d'
      /\ (current_position d + n < SIZE_MODULUS ->
          current_position d' = N.min (current_position d + n)
                                      (vector_size (blocks d) - 1)))
  /\ (exists t d',
      move_backward n d = (Returned t, d')
      /\ blocks d' = blocks d
      /\ head_in_range d'
      /\ Z.of_N (current_position d')
         = Z.max 0 (Z.of_N (current_position d) - Z.of_N n)).
Proof.
  intros [Hmax Hhead] Hne.
  pose proof (vector_size_pos _ Hne) as Hpos.
  destruct Hhead as [Hhead | [_ Hnil]]; [| congruence].
  split.
  - exists (seek_cost d (forward_target d n)),
           (set_current_position d (forward_target d n)).
    pose proof (MAX_BLOCKS_lt_SIZE_MODULUS _ Hmax) as Hmod.
    pose proof (forward_target_in_range d n Hpos Hmod) as Hlt.
    split; [apply move_forward_ok; assumption |].
    split; [reflexivity |].
    split; [unfold head_in_range; simpl; lia |].
    intros Hnowrap. simpl. unfold forward_target.
    rewrite add64_small by assumption.
    rewrite MAX_BLOCKS_eq in Hmax.
    destruct (N.leb_spec (vector_size (blocks d)) (current_position d + n)).
    + rewrite sub64_small; [lia | lia | rewrite SIZE_MODULUS_eq; lia].
    + lia.
  - set (new_pos := if n <=? current_position d
                    then sub64 (current_position d) n else 0).
    assert (Hnew : new_pos = current_position d - n).
    { unfold new_pos. rewrite MAX_BLOCKS_eq in Hmax.
      destruct (N.leb_spec n (current_position d)).
      - rewrite sub64_small; [lia | lia | rewrite SIZE_MODULUS_eq; lia].
      - lia. }
    exists (seek_cost d new_pos), (set_current_position d new_pos).
    split.
    + unfold move_backward, bind at 1, get. simpl. fold new_pos.
      apply seek_to_block_ok. lia.
    + split; [reflexivity |].
      split; [unfold head_in_range; simpl; lia |].
      simpl. lia.
Qed.

Lemma moves_clamp_on_nonempty_device_witness :
  (exists t d',
      move_forward 9 sample_tape = (Returned t, d')
      /\ blocks d' = blocks sample_tape
      /\ head_in_range d'
      /\ (current_position sample_tape + 9 < SIZE_MODULUS ->
          current_position d' = N.min (current_position sample_tape + 9)
                                      (vector_size (blocks sample_tape) - 1)))
  /\ (exists t d',
      move_backward 9 sample_tape = (Returned t, d')
      /\ blocks d' = blocks sample_tape
      /\ head_in_range d'
      /\ Z.of_N (current_position d')
         = Z.max 0 (Z.of_N (current_position sample_tape) - Z.of_N 9)).
Proof.
  apply (moves_clamp_on_nonempty_device sample_tape 9).
  - exact wf_sample_tape.
  - discriminate.
Defined.

(** ** Fixed-interval lookups *)

(** C7. [find_block] of the fixed-interval strategy on an identifier that
    is not in the index map returns [npos] with cost 0 and leaves the
    device untouched; on an identifier whose recorded position holds a
    block with another identifier it returns [npos] with the cost of the
    seek and of the read it performed. *)
Theorem fixed_find_block_not_found
    (self : FixedIntervalIndexStrategy.t) (tape : TapeDevice) (data_id : N) :
  (FixedIntervalIndexStrategy.index_map self !! data_id = None ->
   FixedIntervalIndexStrategy.find_block data_id (self, tape)
     = (Returned (npos, 0%float), (self, tape)))
  /\ (forall (target_pos : N) (block : TapeBlock),
        FixedIntervalIndexStrategy.index_map self !! data_id = Some target_pos ->
        blocks tape !! N.to_nat target_pos = Some block ->
        block_id block <> data_id ->
        let tape' := set_current_position tape target_pos in
        FixedIntervalIndexStrategy.find_block data_id (self, tape)
          = (Returned (npos,
                       (0 + seek_cost tape target_pos + read_cost tape' block)%float),
             (self, tape'))).
Proof.
  split.
  - intros Hmiss. unfold FixedIntervalIndexStrategy.find_block, bind, on_self, get.
    simpl. rewrite Hmiss. reflexivity.
  - intros target_pos block Hhit Hblock Hne tape'.
    pose proof (lookup_range _ _ _ Hblock) as Hlt.
    unfold FixedIntervalIndexStrategy.find_block, bind, on_self, on_tape, get.
    simpl. rewrite Hhit. simpl.
    rewrite seek_to_block_ok by assumption. simpl.
    rewrite (read_current_block_ok (set_current_position tape target_pos) block)
      by exact Hblock.
    destruct (N.eqb_spec (block_id block) data_id) as [Heq | _]; [contradiction |].
    reflexivity.
Qed.

Lemma fixed_find_block_not_found_witness :
  let self := FixedIntervalIndexStrategy.mk 10 (<[5 := 0]> ∅) in
  FixedIntervalIndexStrategy.find_block 6 (self, sample_tape)
    = (Returned (npos, 0%float), (self, sample_tape))
  /\ FixedIntervalIndexStrategy.find_block 5 (self, sample_tape)
    = (Returned (npos,
                 (0 + seek_cost sample_tape 0
                  + read_cost sample_tape (data_block 7 payload3))%float),
       (self, set_current_position sample_tape 0)).
Proof.
  intros self. split.
  - apply (fixed_find_block_not_found self sample_tape 6). reflexivity.
  - apply (fixed_find_block_not_found self sample_tape 5).
    + reflexivity.
    + reflexivity.
    + discriminate.
Defined.

(** ** The circular scan of the strategy without an index *)

Lemma mod_once (a n : N) :
  0 < n -> a < 2 * n -> a mod n = if a <? n then a else a - n.
Proof.
  intros Hn Ha. destruct (N.ltb_spec a n) as [Hlt | Hge].
  - apply N.mod_small; assumption.
  - symmetry. apply (N.mod_unique a n 1 (a - n)); lia.
Qed.

Lemma scan_position_in_range (d : TapeDevice) (start : N) (k : nat) :
  0 < vector_size (blocks d) -> scan_position d start k < vector_size (blocks d).
Proof. intros Hpos. unfold scan_position. apply N.mod_lt. lia. Qed.

Section Scan.

Variable d : TapeDevice.
Variable data_id : N.
Variable start : N.

Let n := vector_size (blocks d).

Hypothesis Hpos : 0 < n.
Hypothesis Hmax : n < MAX_BLOCKS.
Hypothesis Hstart : start < n.

Lemma find_block_loop_exit (fuel : nat) (i : N) (time : float) (tape : TapeDevice) :
  vector_size (blocks tape) <= i ->
  NoIndexStrategy.find_block_loop fuel data_id start i time tape
    = (Returned (npos, time), tape).
Proof.
  intros Hge. destruct fuel; simpl; unfold bind, get_block_count, bind, get; simpl;
    destruct (N.ltb_spec i (vector_size (blocks tape))); try lia; reflexivity.
Qed.

Lemma find_block_loop_step (fuel k : nat) (time : float) (head : N) :
  (k < N.to_nat n)%nat ->
  head < n ->
  let pos := scan_position d start k in
  let time' :=
    (time + double_of_size_t (abs_diff pos head) * seek_time_per_block d
     + read_cost_at d pos)%float in
  NoIndexStrategy.find_block_loop (S fuel) data_id start (N.of_nat k) time
      (set_current_position d head)
    = if block_matches d data_id pos
      then (Returned (pos, time'), set_current_position d pos)
      else NoIndexStrategy.find_block_loop fuel data_id start (N.of_nat (S k)) time'
             (set_current_position d pos).
Proof.
  intros Hk Hhead pos time'.
  pose proof (scan_position_in_range d start k Hpos) as Hlt. fold pos n in Hlt.
  pose proof MAX_BLOCKS_eq as HM. pose proof SIZE_MODULUS_eq as HS.
  assert (Hadd : add64 start (N.of_nat k) = start + N.of_nat k)
    by (apply add64_small; lia).
  assert (Hnext : add64 (N.of_nat k) 1 = N.of_nat (S k))
    by (rewrite add64_small; lia).
  destruct (lookup_in_range (blocks d) pos Hlt) as [block Hblock].
  simpl. unfold bind at 1. unfold get_block_count at 1. unfold bind at 1, get at 1.
  simpl. fold n.
  destruct (N.ltb_spec (N.of_nat k) n) as [_ | Hge]; [| lia].
  unfold bind at 1. unfold get_block_count at 1. unfold bind at 1, get at 1.
  simpl. fold n. rewrite Hadd. change ((start + N.of_nat k) mod n) with pos.
  unfold bind at 1.
  rewrite (seek_to_block_ok pos (set_current_position d head)) by exact Hlt.
  unfold bind at 1.
  rewrite (read_current_block_ok
             (set_current_position (set_current_position d head) pos) block)
    by exact Hblock.
  unfold seek_cost.
  change (current_position (set_current_position d head)) with head.
  change (seek_time_per_block (set_current_position d head))
    with (seek_time_per_block d).
  rewrite seek_distance_small
    by (change (2 ^ 63) with 9223372036854775808; lia).
  unfold block_matches, time', read_cost_at. rewrite Hblock.
  change (read_cost (set_current_position (set_current_position d head) pos) block)
    with (read_cost d block).
  change (set_current_position (set_current_position d head) pos)
    with (set_current_position d pos).
  rewrite Hnext.
  destruct (negb (is_index_block block) && (block_id block =? data_id));
    reflexivity.
Qed.

(** The loop entered at step [k] meets [steps] blocks that fail the test
    and then one that passes it. *)
Lemma find_block_loop_hit (steps : nat) :
  forall (fuel k : nat) (time : float) (head : N),
    (k + steps < N.to_nat n)%nat ->
    head < n ->
    (steps < fuel)%nat ->
    (forall j, (k <= j < k + steps)%nat ->
               block_matches d data_id (scan_position d start j) = false) ->
    block_matches d data_id (scan_position d start (k + steps)) = true ->
    NoIndexStrategy.find_block_loop fuel data_id start (N.of_nat k) time
        (set_current_position d head)
      = (Returned (scan_position d start (k + steps),
                   scan_cost_from d start head time k (S steps)),
         set_current_position d (scan_position d start (k + steps))).
Proof.
  induction steps as [| steps IH]; intros fuel k time head Hk Hhead Hfuel Hmiss Hhit.
  - destruct fuel as [| fuel]; [lia |].
    rewrite find_block_loop_step by (assumption || lia).
    rewrite Nat.add_0_r in Hhit |- *. rewrite Hhit. reflexivity.
  - destruct fuel as [| fuel]; [lia |].
    rewrite find_block_loop_step by (assumption || lia).
    rewrite (Hmiss k) by lia.
    rewrite (IH fuel (S k)).
    + replace (S k + steps)%nat with (k + S steps)%nat by lia. reflexivity.
    + lia.
    + apply scan_position_in_range; exact Hpos.
    + lia.
    + intros j Hj. apply Hmiss. lia.
    + replace (S k + steps)%nat with (k + S steps)%nat by lia. exact Hhit.
Qed.

(** The loop entered at step [k] meets only blocks that fail the test
    until the counter reaches the block count. *)
Lemma find_block_loop_miss (steps : nat) :
  forall (fuel k : nat) (time : float) (head : N),
    (k + steps = N.to_nat n)%nat ->
    head < n ->
    (steps <= fuel)%nat ->
    (forall j, (k <= j < k + steps)%nat ->
               block_matches d data_id (scan_position d start j) = false) ->
    exists head',
      NoIndexStrategy.find_block_loop fuel data_id start (N.of_nat k) time
          (set_current_position d head)
        = (Returned (npos, scan_cost_from d start head time k steps),
           set_current_position d head').
Proof.
  induction steps as [| steps IH]; intros fuel k time head Hk Hhead Hfuel Hmiss.
  - exists head. apply find_block_loop_exit. simpl. fold n. lia.
  - destruct fuel as [| fuel]; [lia |].
    rewrite find_block_loop_step by (assumption || lia).
    rewrite (Hmiss k) by lia.
    destruct (IH fuel (S k)
                (time
                 + double_of_size_t (abs_diff (scan_position d start k) head)
                   * seek_time_per_block d
                 + read_cost_at d (scan_position d start k))%float
                (scan_position d start k)) as [head' Hrun].
    + lia.
    + apply scan_position_in_range; exact Hpos.
    + lia.
    + intros j Hj. apply Hmiss. lia.
    + exists head'. rewrite Hrun. reflexivity.
Qed.

End Scan.

Lemma scan_position_at_distance (d : TapeDevice) (p : N) :
  current_position d < vector_size (blocks d) ->
  p < vector_size (blocks d) ->
  scan_position d (current_position d) (scan_distance d p) = p
  /\ (scan_distance d p < N.to_nat (vector_size (blocks d)))%nat
  /\ forall j, (j < scan_distance d p)%nat ->
               scan_position d (current_position d) j <> p.
Proof.
  intros Hh Hp. unfold scan_position, scan_distance.
  set (n := vector_size (blocks d)) in *. set (h := current_position d) in *.
  assert (Hdist : (p + n - h) mod n = if h <=? p then p - h else p + n - h).
  { rewrite mod_once by lia.
    destruct (N.ltb_spec (p + n - h) n); destruct (N.leb_spec h p); lia. }
  rewrite Hdist, N2Nat.id.
  split; [| split].
  - rewrite mod_once by (destruct (N.leb_spec h p); lia).
    destruct (N.leb_spec h p);
      match goal with |- context [?a <? ?b] => destruct (N.ltb_spec a b) end; lia.
  - destruct (N.leb_spec h p); lia.
  - intros j Hj. rewrite mod_once by (destruct (N.leb_spec h p); lia).
    destruct (N.leb_spec h p);
      match goal with |- context [?a <? ?b] => destruct (N.ltb_spec a b) end; lia.
Qed.

Lemma block_matches_true (d : TapeDevice) (data_id pos : N) :
  block_matches d data_id pos = true <->
  exists block, blocks d !! N.to_nat pos = Some block
                /\ is_index_block block = false /\ block_id block = data_id.
Proof.
  unfold block_matches. split.
  - destruct (blocks d !! N.to_nat pos) as [block |]; [| discriminate].
    intros H. apply andb_prop in H as [Hidx Hid].
    exists block. split; [reflexivity |]. split.
    + destruct (is_index_block block); [discriminate | reflexivity].
    + apply N.eqb_eq. exact Hid.
  - intros (block & -> & Hidx & Hid). rewrite Hidx. simpl.
    apply N.eqb_eq. exact Hid.
Qed.

(** C3. On a device with at least one block, [find_block] of the strategy
    without an index returns the position of the one data block that carries
    the identifier, at the cost of the blocks visited from the head up to it
    in circular order (a seek and a read for each); when no data block
    carries the identifier it returns [npos] at the cost of visiting every
    block once. *)
Theorem no_index_find_block_scans (tape : TapeDevice) (data_id : N) :
  wf_device tape ->
  blocks tape <> [] ->
  (forall (p : N) (block : TapeBlock),
      blocks tape !! N.to_nat p = Some block ->
      is_index_block block = false ->
      block_id block = data_id ->
      (forall (q : N) (block' : TapeBlock),
          blocks tape !! N.to_nat q = Some block' ->
          is_index_block block' = false ->
          block_id block' = data_id -> q = p) ->
      NoIndexStrategy.find_block data_id tape
        = (Returned (p, scan_cost tape (S (scan_distance tape p))),
           set_current_position tape p))
  /\ ((forall (q : N) (block' : TapeBlock),
          blocks tape !! N.to_nat q = Some block' ->
          is_index_block block' = false ->
          block_id block' <> data_id) ->
      exists tape',
        NoIndexStrategy.find_block data_id tape
          = (Returned (npos, scan_cost tape (length (blocks tape))), tape')
        /\ blocks tape' = blocks tape).
Proof.
  intros [Hmax Hhead] Hne.
  pose proof (vector_size_pos _ Hne) as Hpos.
  destruct Hhead as [Hhead | [_ Hnil]]; [| congruence].
  assert (Hrun : forall r,
             NoIndexStrategy.find_block_loop (length (blocks tape)) data_id
               (current_position tape) (N.of_nat 0) 0%float
               (set_current_position tape (current_position tape)) = r ->
             NoIndexStrategy.find_block data_id tape = r).
  { intros r <-. rewrite set_current_position_same. reflexivity. }
  split.
  - intros p block Hblock Hidx Hid Huniq.
    pose proof (lookup_range _ _ _ Hblock) as Hp.
    destruct (scan_position_at_distance tape p Hhead Hp) as (Hat & Hdist & Hbefore).
    apply Hrun.
    rewrite (find_block_loop_hit tape data_id (current_position tape) Hpos Hmax
               Hhead (scan_distance tape p)).
    + simpl Nat.add. rewrite Hat. reflexivity.
    + simpl Nat.add. exact Hdist.
    + exact Hhead.
    + unfold vector_size in Hdist. lia.
    + intros j Hj.
      destruct (block_matches tape data_id
                  (scan_position tape (current_position tape) j)) eqn:E;
        [| reflexivity].
      apply block_matches_true in E as (block' & Hb' & Hidx' & Hid').
      exfalso. apply (Hbefore j); [lia |].
      apply (Huniq _ block'); assumption.
    + simpl Nat.add. rewrite Hat. apply block_matches_true. eauto.
  - intros Habsent.
    destruct (find_block_loop_miss tape data_id (current_position tape) Hpos Hmax
                Hhead (length (blocks tape)) (length (blocks tape)) 0 0%float
                (current_position tape)) as [head' Hloop].
    + unfold vector_size. lia.
    + exact Hhead.
    + lia.
    + intros j Hj.
      destruct (block_matches tape data_id
                  (scan_position tape (current_position tape) j)) eqn:E;
        [| reflexivity].
      apply block_matches_true in E as (block' & Hb' & Hidx' & Hid').
      exfalso. exact (Habsent _ block' Hb' Hidx' Hid').
    + exists (set_current_position tape head'). split; [| reflexivity].
      apply Hrun. exact Hloop.
Qed.

Lemma no_index_find_block_scans_witness :
  let tape := set_current_position sample_tape 3 in
  NoIndexStrategy.find_block 5 tape
    = (Returned (1, scan_cost tape 3), set_current_position tape 1)
  /\ exists tape',
      NoIndexStrategy.find_block 6 tape = (Returned (npos, scan_cost tape 4), tape')
      /\ blocks tape' = blocks tape.
Proof.
  intros tape.
  assert (Hwf : wf_device tape) by (split; [reflexivity | left; reflexivity]).
  assert (Hne : blocks tape <> []) by discriminate.
  split.
  - apply (proj1 (no_index_find_block_scans tape 5 Hwf Hne) 1 (data_block 5 [])).
    + reflexivity.
    + reflexivity.
    + reflexivity.
    + intros q block' Hq Hidx Hid.
      destruct (N.to_nat q) as [| [| [| [| k]]]] eqn:E; simpl in Hq;
        try discriminate; injection Hq as <-; try discriminate.
      lia.
  - apply (proj2 (no_index_find_block_scans tape 6 Hwf Hne)).
    intros q block' Hq Hidx.
    destruct (N.to_nat q) as [| [| [| [| k]]]]; simpl in Hq;
      try discriminate; injection Hq as <-; discriminate.
Defined.

(** ** Building the fixed-interval index *)






Module FixedIntervalBuild.
Import FixedIntervalIndexStrategy.








End FixedIntervalBuild.

(** ** Building the two-level index *)

Module HierarchicalBuild.
Import HierarchicalIndexStrategy.

(** One pass of the collecting loop reads the block under the head and
    steps forward; the block sequence is not touched. *)
Lemma collect_body_runs (block_count i : N) (data_blocks : list (N * N))
    (time : float) (tape : TapeDevice) :
  current_position tape < vector_size (blocks tape) ->
  vector_size (blocks tape) < SIZE_MODULUS ->
  block_count < SIZE_MODULUS ->
  exists (data_blocks' : list (N * N)) (time' : float) (head' : N),
    collect_body block_count i data_blocks time tape
      = (Returned (data_blocks', time'), set_current_position tape head')
    /\ head' < vector_size (blocks tape).
Proof.
  intros Hhead Hmax Hcount.
  destruct (lookup_in_range _ _ Hhead) as [block Hblock].
  unfold collect_body.
  run_with (read_current_block_ok tape block Hblock).
  destruct (i <? sub64 block_count 1).
  - assert (Hmove : move_forward 1 tape
                    = (Returned (seek_cost tape (forward_target tape 1)),
                       set_current_position tape (forward_target tape 1)))
      by (apply move_forward_ok; lia).
    run_with Hmove. eexists _, _, _. split; [reflexivity |].
    apply forward_target_in_range; lia.
  - eexists _, _, (current_position tape).
    rewrite set_current_position_same. split; [reflexivity | exact Hhead].
Qed.

Lemma collect_loop_returns (fuel : nat) :
  forall (block_count i : N) (data_blocks : list (N * N)) (time : float)
         (tape : TapeDevice),
    current_position tape < vector_size (blocks tape) ->
    vector_size (blocks tape) < SIZE_MODULUS ->
    block_count < SIZE_MODULUS ->
    (N.to_nat block_count - N.to_nat i <= fuel)%nat ->
    exists (data_blocks' : list (N * N)) (time' : float) (head' : N),
      collect_loop fuel block_count i data_blocks time tape
        = (Returned (data_blocks', time'), set_current_position tape head')
      /\ head' < vector_size (blocks tape).
Proof.
  induction fuel as [| fuel IH];
    intros block_count i data_blocks time tape Hhead Hmax Hcount Hfuel.
  - exists data_blocks, time, (current_position tape).
    rewrite set_current_position_same. split; [| exact Hhead].
    cbn [collect_loop].
    destruct (N.ltb_spec i block_count); [lia | reflexivity].
  - cbn [collect_loop].
    destruct (N.ltb_spec i block_count) as [Hlt | Hge].
    + destruct (collect_body_runs block_count i data_blocks time tape)
        as (data1 & time1 & head1 & Hbody & Hhead1); [assumption .. |].
      run_with Hbody.
      rewrite add64_small by lia.
      destruct (IH block_count (i + 1) data1 time1 (set_current_position tape head1))
        as (data' & time' & head' & Hloop & Hhead'); [assumption .. | lia |].
      exists data', time', head'. split; [exact Hloop | exact Hhead'].
    + exists data_blocks, time, (current_position tape).
      rewrite set_current_position_same. split; [reflexivity | exact Hhead].
Qed.

(** The second loop never touches the device, whatever its outcome. *)
Lemma assign_loop_keeps_tape (rest : list (N * N)) :
  forall (i : N) (self : t) (tape : TapeDevice),
    snd (snd (assign_loop rest i (self, tape))) = tape.
Proof.
  induction rest as [| [id pos] rest IH]; intros i self tape; [reflexivity |].
  cbn [assign_loop].
  assert (Hself : on_self (Tape := TapeDevice) get (self, tape)
                  = (Returned self, (self, tape))) by reflexivity.
  run_with Hself.
  unfold udiv at 1.
  destruct (level2_interval self =? 0); [reflexivity |].
  assert (Hret2 : ret (St := t * TapeDevice) (i / level2_interval self)
                    (self, tape)
                  = (Returned (i / level2_interval self), (self, tape)))
    by reflexivity.
  run_with Hret2.
  unfold udiv at 1.
  destruct (level1_interval self =? 0); [reflexivity |].
  unfold bind at 1. cbn [ret]. unfold bind at 1.
  cbn [index_map_store on_self bind get put fst snd]. apply IH.
Qed.

Lemma assign_loop_returns (rest : list (N * N)) :
  forall (i : N) (self : t) (tape : TapeDevice),
    0 < level1_interval self ->
    0 < level2_interval self ->
    exists self',
      assign_loop rest i (self, tape) = (Returned tt, (self', tape)).
Proof.
  induction rest as [| [id pos] rest IH]; intros i self tape H1 H2.
  - exists self. reflexivity.
  - cbn [assign_loop].
    assert (Hself : on_self (Tape := TapeDevice) get (self, tape)
                    = (Returned self, (self, tape))) by reflexivity.
    run_with Hself.
    run_with (udiv_ok (St := t * TapeDevice) i (level2_interval self)
                (self, tape) H2).
    run_with (udiv_ok (St := t * TapeDevice) (i / level2_interval self)
                (level1_interval self) (self, tape) H1).
    set (self1 := set_index_map self
                    (<[id := (i / level2_interval self / level1_interval self,
                              i / level2_interval self)]> (index_map self))).
    assert (Hstore : index_map_store (Tape := TapeDevice) id
                       (i / level2_interval self / level1_interval self,
                        i / level2_interval self) (self, tape)
                     = (Returned tt, (self1, tape))) by reflexivity.
    run_with Hstore.
    apply (IH (add64 i 1) self1 tape); assumption.
Qed.

(** [build_index] up to the second loop: the device then holds the old
    blocks followed by the two summary blocks. *)
Lemma hierarchical_build_index_prefix (self : t) (tape : TapeDevice) :
  wf_device tape ->
  blocks tape <> [] ->
  exists (data_blocks : list (N * N)) (time : float) (tape2 : TapeDevice),
    blocks tape2 = blocks tape ++ [level2_block; level1_block]
    /\ build_index (self, tape)
       = bind (assign_loop data_blocks 0)
              (fun _ =>
                 bind (on_tape (seek_to_block (current_position tape)))
                      (fun seek_time => ret (time + seek_time)%float))
              (set_index_map self ∅, tape2).
Proof.
  intros [Hmax Hhead] Hne.
  pose proof (vector_size_pos _ Hne) as Hpos.
  pose proof (MAX_BLOCKS_lt_SIZE_MODULUS _ Hmax) as Hmod.
  set (self0 := set_index_map self ∅).
  set (tape0 := set_current_position tape 0).
  assert (Hclear : on_self (Tape := TapeDevice)
                     (bind get (fun s => put (set_index_map s ∅))) (self, tape)
                   = (Returned tt, (self0, tape))) by reflexivity.
  assert (Hpos0 : on_tape (Self := t) get_current_position (self0, tape)
                  = (Returned (current_position tape), (self0, tape))) by reflexivity.
  assert (Hcount : on_tape (Self := t) get_block_count (self0, tape)
                   = (Returned (vector_size (blocks tape)), (self0, tape)))
    by reflexivity.
  assert (Hseek0 : on_tape (Self := t) (seek_to_block 0) (self0, tape)
                   = (Returned (seek_cost tape 0), (self0, tape0))).
  { apply on_tape_returned. apply seek_to_block_ok. exact Hpos. }
  destruct (collect_loop_returns (N.to_nat (vector_size (blocks tape)))
              (vector_size (blocks tape)) 0 [] (0 + seek_cost tape 0)%float tape0)
    as (data_blocks & time1 & head1 & Hloop & Hhead1);
    [exact Hpos | exact Hmod | exact Hmod | lia |].
  set (tape1 := set_current_position tape0 head1) in *.
  assert (Hcollect : on_tape (Self := t)
                       (collect_loop (N.to_nat (vector_size (blocks tape)))
                          (vector_size (blocks tape)) 0 [] (0 + seek_cost tape 0)%float)
                       (self0, tape0)
                     = (Returned (data_blocks, time1), (self0, tape1)))
    by (apply on_tape_returned; exact Hloop).
  set (tape2 := set_blocks tape1 (blocks tape1 ++ [level2_block])).
  set (tape3 := set_blocks tape2 (blocks tape2 ++ [level1_block])).
  assert (Hwrite2 : on_tape (Self := t) (write_block level2_block) (self0, tape1)
                    = (Returned (write_cost tape1 level2_block), (self0, tape2)))
    by reflexivity.
  assert (Hwrite1 : on_tape (Self := t) (write_block level1_block) (self0, tape2)
                    = (Returned (write_cost tape2 level1_block), (self0, tape3)))
    by reflexivity.
  exists data_blocks,
         (time1 + write_cost tape1 level2_block
          + write_cost tape2 level1_block)%float,
         tape3.
  split.
  - simpl. rewrite <- app_assoc. reflexivity.
  - unfold build_index.
    run_with Hclear. run_with Hpos0. run_with Hcount. run_with Hseek0.
    run_with Hcollect. run_with Hwrite2. run_with Hwrite1. reflexivity.
Qed.

(** With positive intervals [build_index] of the two-level strategy returns,
    with the head back where it was. *)
Lemma hierarchical_build_index_returns (self : t) (tape : TapeDevice) :
  0 < level1_interval self ->
  0 < level2_interval self ->
  wf_device tape ->
  blocks tape <> [] ->
  exists (time : float) (self' : t) (tape' : TapeDevice),
    build_index (self, tape) = (Returned time, (self', tape'))
    /\ current_position tape' = current_position tape
    /\ blocks tape' = blocks tape ++ [level2_block; level1_block].
Proof.
  intros H1 H2 Hwf Hne.
  destruct (hierarchical_build_index_prefix self tape Hwf Hne)
    as (data_blocks & time & tape2 & Hblocks & Hrun).
  destruct Hwf as [Hmax Hhead].
  destruct Hhead as [Hhead | [_ Hnil]]; [| congruence].
  destruct (assign_loop_returns data_blocks 0 (set_index_map self ∅) tape2 H1 H2)
    as [self' Hassign].
  assert (Hback : on_tape (Self := t) (seek_to_block (current_position tape))
                    (self', tape2)
                  = (Returned (seek_cost tape2 (current_position tape)),
                     (self', set_current_position tape2 (current_position tape)))).
  { apply on_tape_returned. apply seek_to_block_ok.
    rewrite Hblocks, vector_size_app. lia. }
  rewrite Hrun. run_with Hassign. run_with Hback.
  eexists _, _, _. split; [reflexivity |].
  split; [reflexivity | exact Hblocks].
Qed.

End HierarchicalBuild.

(** C8. On a device with at least one block, [build_index] of the two-level
    strategy leaves the old blocks in place and appends exactly two blocks
    at the end: the level-2 summary, then the level-1 summary, both index
    blocks without payload; it returns whenever both intervals are positive. *)
Theorem hierarchical_build_index_appends_two_summaries
    (self : HierarchicalIndexStrategy.t) (tape : TapeDevice) :
  wf_device tape ->
  blocks tape <> [] ->
  blocks (snd (snd (HierarchicalIndexStrategy.build_index (self, tape))))
    = blocks tape ++ [mkTapeBlock 1000000 [] true; mkTapeBlock 2000000 [] true]
  /\ (0 < HierarchicalIndexStrategy.level1_interval self ->
      0 < HierarchicalIndexStrategy.level2_interval self ->
      exists time,
        fst (HierarchicalIndexStrategy.build_index (self, tape)) = Returned time).
Proof.
  intros Hwf Hne. split.
  - destruct (HierarchicalBuild.hierarchical_build_index_prefix self tape Hwf Hne)
      as (data_blocks & time & tape2 & Hblocks & Hrun).
    rewrite Hrun. unfold bind at 1.
    set (self0 := HierarchicalIndexStrategy.set_index_map self ∅) in *.
    pose proof (HierarchicalBuild.assign_loop_keeps_tape data_blocks 0 self0 tape2)
      as Hkeep.
    destruct (HierarchicalIndexStrategy.assign_loop data_blocks 0 (self0, tape2))
      as [[[] | e |] [self' tape']]; simpl in Hkeep; subst tape'.
    + unfold bind, on_tape. cbn [fst snd].
      pose proof (seek_to_block_keeps_blocks (current_position tape) tape2) as Hseek.
      destruct (seek_to_block (current_position tape) tape2) as [[t | e |] tape3];
        simpl in Hseek |- *; rewrite Hseek; exact Hblocks.
    + exact Hblocks.
    + exact Hblocks.
  - intros H1 H2.
    destruct (HierarchicalBuild.hierarchical_build_index_returns self tape H1 H2 Hwf Hne)
      as (time & self' & tape' & Hrun & _).
    exists time. rewrite Hrun. reflexivity.
Qed.

(** ** Every strategy puts the head back *)

Lemma create_strategy_wf (type : string) (param1 param2 : N) (strategy : IndexStrategy) :
  create_strategy type param1 param2 = Some strategy -> wf_strategy strategy.
Proof.
  unfold create_strategy.
  destruct (String.eqb type "none"); [intros [= <-]; exact I |].
  destruct (String.eqb type "fixed").
  - intros [= <-]. simpl. destruct (N.ltb_spec 0 param1); lia.
  - destruct (String.eqb type "hierarchical"); [| discriminate].
    intros [= <-]. simpl.
    destruct (N.ltb_spec 0 param1); destruct (N.ltb_spec 0 param2); lia.
Qed.



Lemma hierarchical_build_index_appends_two_summaries_witness :
  blocks (snd (snd (HierarchicalIndexStrategy.build_index
                      (sample_hierarchical, sample_tape))))
    = blocks sample_tape ++ [mkTapeBlock 1000000 [] true; mkTapeBlock 2000000 [] true]
  /\ exists time,
      fst (HierarchicalIndexStrategy.build_index (sample_hierarchical, sample_tape))
        = Returned time.
Proof.
  destruct (hierarchical_build_index_appends_two_summaries
              sample_hierarchical sample_tape wf_sample_tape)
    as [Hblocks Hreturns].
  - discriminate.
  - split; [exact Hblocks |]. apply Hreturns; reflexivity.
Defined.

(** ** The scenario of 100 data blocks with interval 10 *)

Lemma scenario_tape_well_formed :
  wf_device scenario_tape
  /\ count_data (blocks scenario_tape) = 100%nat
  /\ map block_id (blocks scenario_tape) = map N.of_nat (seq 1 100).
Proof.
  split; [split; [reflexivity | left; reflexivity] |].
  split; reflexivity.
Qed.

(** C2, on the scenario. After the tenth data block the loop appends the
    index block at the end of the tape and then steps the head twice, so
    the eleventh data block is never read: the build records 91 entries,
    not 100, and appends 9 index blocks, not 10. *)
Theorem fixed_scenario_build_counts :
  (exists time, fst scenario_built = Returned time)
  /\ size (FixedIntervalIndexStrategy.index_map (fst (snd scenario_built))) = 91%nat
  /\ length (blocks (snd (snd scenario_built))) = 109%nat
  /\ take 100 (blocks (snd (snd scenario_built))) = blocks scenario_tape
  /\ map block_id (drop 100 (blocks (snd (snd scenario_built))))
     = [1000010; 1000021; 1000032; 1000043; 1000054; 1000065; 1000076;
        1000087; 1000098]
  /\ (100 / 10 = 10).
Proof.
  split; [eexists; vm_compute; reflexivity |].
  repeat split; vm_compute; reflexivity.
Qed.

(** C1, on the scenario. Identifier 57 sits at position 56, but the build
    recorded it under the loop counter 51, where identifier 52 is stored:
    [find_block 57] reports "not found".  Identifier 11 was skipped by the
    build and is not in the map at all. *)
Theorem fixed_scenario_find_57_not_found :
  (exists block, blocks (snd (snd scenario_built)) !! 56%nat = Some block
                 /\ block_id block = 57 /\ is_index_block block = false)
  /\ FixedIntervalIndexStrategy.index_map (fst (snd scenario_built)) !! 57 = Some 51
  /\ (exists block, blocks (snd (snd scenario_built)) !! 51%nat = Some block
                    /\ block_id block = 52)
  /\ (exists time,
        fst (FixedIntervalIndexStrategy.find_block 57 (snd scenario_built))
          = Returned (npos, time))
  /\ FixedIntervalIndexStrategy.index_map (fst (snd scenario_built)) !! 11 = None
  /\ fst (FixedIntervalIndexStrategy.find_block 11 (snd scenario_built))
     = Returned (npos, 0%float).
Proof.
  split; [eexists; split; [vm_compute; reflexivity | split; reflexivity] |].
  split; [vm_compute; reflexivity |].
  split; [eexists; split; [vm_compute; reflexivity | reflexivity] |].
  split; [eexists; vm_compute; reflexivity |].
  split; vm_compute; reflexivity.
Qed.
